(** * server.py: a two-route Flask application

    The program under verification is

<<
    from flask import Flask, jsonify
    app = Flask(__name__)

    @app.route("/api")
    def api():
        return jsonify({"message": "Hello from Chinecherem Udegbunam"})

    @app.route("/")
    def root():
        return "<h1>Index served from container</h1><p>Try GET /api</p>"

    if __name__ == "__main__":
        app.run(host="0.0.0.0", port=5000)
>>

    The development has three layers:
    - [Py]: the Python values the views build and the [json] encoder and
      decoder the framework runs on them;
    - [Flask]: the part of Flask and Werkzeug the program runs through:
      the application object with its built-in static rule, URL matching
      (methods, trailing and doubled slashes, WebSocket upgrades, the
      host name), response construction, [jsonify], [Flask.run] and
      Werkzeug's development server with its debugger middleware;
    - [Server]: the module [server.py] itself, statement by statement.

    What the libraries and the machine decide outside the program is an
    input: the environment, the command line and the dotenv files of the
    process, whether the address can be bound, the clock reading and the
    iteration order of a Python set at each reply ([Moment]), and, in
    [Platform], the behaviours the model does not fix: the IDNA encoding
    of a non-ASCII host, the reply of the static-file view, the replies
    the debugger gives by itself, the target of a redirect and the
    address of an inherited socket. *)

From Stdlib Require Import String Ascii List ZArith NArith Bool Lia DecimalString.
From Stdlib Require Import Permutation.
From stdpp Require Import gmap strings.
Import ListNotations.
Local Open Scope string_scope.
Set Warnings "-register-all".

(** ** Characters and strings *)

Module Str.

Definition dquote : ascii := "034"%char.
Definition backslash : ascii := "092"%char.
Definition newline : ascii := "010"%char.

Definition chr (c : ascii) : string := String c EmptyString.

(** [sep.join(parts)] *)
Fixpoint join (sep : string) (parts : list string) : string :=
  match parts with
  | [] => ""
  | [p] => p
  | p :: rest => p ++ sep ++ join sep rest
  end.

(** [s * n] *)
Fixpoint times (s : string) (n : nat) : string :=
  match n with
  | O => ""
  | S k => s ++ times s k
  end.

(** [s.lstrip(c)] for a single character [c] *)
Fixpoint lstrip (c : ascii) (s : string) : string :=
  match s with
  | String a r => if Ascii.eqb a c then lstrip c r else s
  | EmptyString => EmptyString
  end.

(** [s.lower()] and [s.upper()] on ASCII letters.  The other characters
    of a header text are kept as they are; the comparisons made on the
    results are with ASCII words only. *)
Definition lower_char (c : ascii) : ascii :=
  let n := nat_of_ascii c in
  if (65 <=? n)%nat && (n <=? 90)%nat then ascii_of_nat (n + 32) else c.

Fixpoint lower (s : string) : string :=
  match s with
  | String a r => String (lower_char a) (lower r)
  | EmptyString => EmptyString
  end.

Definition upper_char (c : ascii) : ascii :=
  let n := nat_of_ascii c in
  if (97 <=? n)%nat && (n <=? 122)%nat then ascii_of_nat (n - 32) else c.

Fixpoint upper (s : string) : string :=
  match s with
  | String a r => String (upper_char a) (upper r)
  | EmptyString => EmptyString
  end.

(** [c.isspace()] for a character below 256 *)
Definition is_space (c : ascii) : bool :=
  let n := nat_of_ascii c in
  (n =? 32)%nat || ((9 <=? n)%nat && (n <=? 13)%nat)
  || ((28 <=? n)%nat && (n <=? 31)%nat) || (n =? 133)%nat || (n =? 160)%nat.

(** [s.strip()] *)
Fixpoint lstrip_ws (s : string) : string :=
  match s with
  | String a r => if is_space a then lstrip_ws r else s
  | EmptyString => EmptyString
  end.

Fixpoint rev_acc (s acc : string) : string :=
  match s with
  | String a r => rev_acc r (String a acc)
  | EmptyString => acc
  end.

Definition rev (s : string) : string := rev_acc s "".

Definition strip (s : string) : string := rev (lstrip_ws (rev (lstrip_ws s))).

(** [s.partition(c)[0]] and [s.partition(c)[2]] *)
Fixpoint before (c : ascii) (s : string) : string :=
  match s with
  | String a r => if Ascii.eqb a c then "" else String a (before c r)
  | EmptyString => EmptyString
  end.

Fixpoint after (c : ascii) (s : string) : string :=
  match s with
  | String a r => if Ascii.eqb a c then r else after c r
  | EmptyString => EmptyString
  end.

(** [s.split(c)]: never empty, [""] for the empty text *)
Fixpoint split (c : ascii) (s : string) : list string :=
  match s with
  | EmptyString => [""]
  | String a r =>
      if Ascii.eqb a c then "" :: split c r
      else match split c r with
           | p :: ps => String a p :: ps
           | [] => [chr a]
           end
  end.

(** [s.endswith(suffix)] *)
Definition has_suffix (suffix s : string) : bool :=
  String.prefix (rev suffix) (rev s).

(** [s[:-n]] for a text of at least [n] characters *)
Definition drop_last (n : nat) (s : string) : string :=
  String.substring 0 (String.length s - n) s.

(** Every character is below 128. *)
Fixpoint is_ascii (s : string) : bool :=
  match s with
  | String a r => (nat_of_ascii a <? 128)%nat && is_ascii r
  | EmptyString => true
  end.

(** [str(n)] for an integer *)
Definition of_Z (z : Z) : string := NilZero.string_of_int (Z.to_int z).
Definition of_nat (n : nat) : string := of_Z (Z.of_nat n).

End Str.

(** ** Python values and the [json] module *)

Module Py.

(** A Python [str] is a sequence of code points; [text] reads one off a
    literal of the source. *)
Definition pystr := list N.

Definition text (s : string) : pystr := map N_of_ascii (list_ascii_of_string s).

Fixpoint str_eqb (a b : pystr) : bool :=
  match a, b with
  | [], [] => true
  | x :: a', y :: b' => N.eqb x y && str_eqb a' b'
  | _, _ => false
  end.

(** [a <= b] on [str]: by code points, left to right *)
Fixpoint str_leb (a b : pystr) : bool :=
  match a, b with
  | [], _ => true
  | _ :: _, [] => false
  | x :: a', y :: b' =>
      if N.ltb x y then true else if N.ltb y x then false else str_leb a' b'
  end.

(** The values a view hands to [jsonify]: a dict keeps insertion order. *)
Inductive pyobj : Type :=
| PyNone
| PyBool (b : bool)
| PyInt (z : Z)
| PyStr (s : pystr)
| PyList (l : list pyobj)
| PyDict (items : list (pystr * pyobj)).

(** [dict.keys()] *)
Definition keys (items : list (pystr * pyobj)) : list pystr := map fst items.

(** *** json.encoder *)

Definition hex_digit (n : N) : ascii :=
  match n with
  | 0 => "0" | 1 => "1" | 2 => "2" | 3 => "3" | 4 => "4" | 5 => "5"
  | 6 => "6" | 7 => "7" | 8 => "8" | 9 => "9" | 10 => "a" | 11 => "b"
  | 12 => "c" | 13 => "d" | 14 => "e" | _ => "f"
  end%N%char.

(** ['\\u{0:04x}'.format(n)] for [n] below 65536 *)
Definition u_escape (n : N) : string :=
  String Str.backslash
    (String "u"
       (String (hex_digit (N.land (N.shiftr n 12) 15))
          (String (hex_digit (N.land (N.shiftr n 8) 15))
             (String (hex_digit (N.land (N.shiftr n 4) 15))
                (Str.chr (hex_digit (N.land n 15))))))).

(** [ESCAPE_DCT] and the fallbacks of [py_encode_basestring_ascii]: the
    quote, the backslash and every code point outside [' '..'~'] are
    escaped, code points above 65535 as a surrogate pair. *)
Definition escape_code (n : N) : string :=
  if N.eqb n 34 then String Str.backslash (Str.chr Str.dquote)
  else if N.eqb n 92 then String Str.backslash (Str.chr Str.backslash)
  else if N.leb 32 n && N.leb n 126 then Str.chr (ascii_of_N n)
  else match n with
       | 8 => String Str.backslash "b"
       | 12 => String Str.backslash "f"
       | 10 => String Str.backslash "n"
       | 13 => String Str.backslash "r"
       | 9 => String Str.backslash "t"
       | _ =>
           if N.ltb n 65536 then u_escape n
           else
             let v := (n - 65536)%N in
             u_escape (N.lor 55296 (N.land (N.shiftr v 10) 1023))
             ++ u_escape (N.lor 56320 (N.land v 1023))
       end%N.

Fixpoint escape_body (s : pystr) : string :=
  match s with
  | n :: r => escape_code n ++ escape_body r
  | [] => EmptyString
  end.

Definition encode_basestring_ascii (s : pystr) : string :=
  String Str.dquote (escape_body s ++ Str.chr Str.dquote).

(** [sorted(dct.items())]: insertion sort on the keys *)
Fixpoint insert_item {A} (kv : pystr * A) (l : list (pystr * A)) : list (pystr * A) :=
  match l with
  | [] => [kv]
  | kv' :: r => if str_leb (fst kv) (fst kv') then kv :: l else kv' :: insert_item kv r
  end.

Definition sorted_items {A} (l : list (pystr * A)) : list (pystr * A) :=
  fold_right insert_item [] l.

(** The keyword arguments of [json.dumps] that Flask sets. *)
Record dump_args := {
  indent : option nat;
  separators : option (string * string);
  sort_keys : bool
}.

(** [JSONEncoder.__init__]: explicit separators win; with an indent the
    item separator loses its trailing space. *)
Definition item_separator (a : dump_args) : string :=
  match separators a, indent a with
  | Some (i, _), _ => i
  | None, Some _ => ","
  | None, None => ", "
  end.

Definition key_separator (a : dump_args) : string :=
  match separators a with
  | Some (_, k) => k
  | None => ": "
  end.

(** ['\n' + _indent * level], or nothing without an indent *)
Definition newline_indent (a : dump_args) (level : nat) : string :=
  match indent a with
  | Some n => String Str.newline (Str.times (Str.times " " n) level)
  | None => ""
  end.

(** The container part of [_iterencode_list] and [_iterencode_dict]:
    [parts] are the already encoded items, [level] the indent level of the
    enclosing text. *)
Definition encode_container (a : dump_args) (op cl : string) (level : nat)
    (parts : list string) : string :=
  match parts with
  | [] => op ++ cl
  | _ => op ++ newline_indent a (S level)
            ++ Str.join (item_separator a ++ newline_indent a (S level)) parts
            ++ newline_indent a level ++ cl
  end.

Definition encode_pair (a : dump_args) (kv : pystr * string) : string :=
  encode_basestring_ascii (fst kv) ++ key_separator a ++ snd kv.

Fixpoint iterencode (a : dump_args) (level : nat) (o : pyobj) {struct o} : string :=
  match o with
  | PyNone => "null"
  | PyBool true => "true"
  | PyBool false => "false"
  | PyInt z => Str.of_Z z
  | PyStr s => encode_basestring_ascii s
  | PyList l => encode_container a "[" "]" level (map (iterencode a (S level)) l)
  | PyDict items =>
      let encoded :=
        (fix go (l : list (pystr * pyobj)) : list (pystr * string) :=
           match l with
           | [] => []
           | (k, v) :: r => (k, iterencode a (S level) v) :: go r
           end) items in
      let ordered := if sort_keys a then sorted_items encoded else encoded in
      encode_container a "{" "}" level (map (encode_pair a) ordered)
  end.

(** [json.dumps(obj, **args)] *)
Definition dumps (a : dump_args) (o : pyobj) : string := iterencode a 0 o.

(** *** json.decoder

    The text is given by its characters, each a code point below 256.
    Integers, strings, arrays, objects and the literals [null], [true]
    and [false] are decoded; a number with a fraction or an exponent, and
    the names [NaN] and [Infinity], are outside the model and give [None],
    as a syntax error does. *)

(** The whitespace the decoder skips: space, tab, line feed, return *)
Definition is_ws (c : ascii) : bool :=
  let n := nat_of_ascii c in
  (n =? 32)%nat || (n =? 9)%nat || (n =? 10)%nat || (n =? 13)%nat.

Fixpoint skip_ws (s : string) : string :=
  match s with
  | String a r => if is_ws a then skip_ws r else s
  | EmptyString => EmptyString
  end.

Definition hex_value (c : ascii) : option N :=
  let n := N_of_ascii c in
  if N.leb 48 n && N.leb n 57 then Some (n - 48)%N
  else if N.leb 97 n && N.leb n 102 then Some (n - 87)%N
  else if N.leb 65 n && N.leb n 70 then Some (n - 55)%N
  else None.

Definition hex4 (a b c d : ascii) : option N :=
  match hex_value a, hex_value b, hex_value c, hex_value d with
  | Some x, Some y, Some z, Some w => Some (((x * 16 + y) * 16 + z) * 16 + w)%N
  | _, _, _, _ => None
  end.

(** [BACKSLASH] *)
Definition unescape (e : ascii) : option N :=
  if Ascii.eqb e Str.dquote then Some 34%N
  else if Ascii.eqb e Str.backslash then Some 92%N
  else match e with
       | "/" => Some 47
       | "b" => Some 8
       | "f" => Some 12
       | "n" => Some 10
       | "r" => Some 13
       | "t" => Some 9
       | _ => None
       end%char%N.

Definition is_high_surrogate (n : N) : bool := N.leb 55296 n && N.leb n 56319.
Definition is_low_surrogate (n : N) : bool := N.leb 56320 n && N.leb n 57343.

Definition join_surrogates (hi lo : N) : N :=
  (65536 + N.lor (N.shiftl (hi - 55296) 10) (lo - 56320))%N.

Definition cons_code (n : N) (r : option (pystr * string)) : option (pystr * string) :=
  match r with
  | Some (s, rest) => Some (n :: s, rest)
  | None => None
  end.

(** [scanstring] in strict mode, from just after the opening quote: the
    decoded text and what follows the closing quote.  A high surrogate
    escape followed by a low surrogate escape gives one code point. *)
Fixpoint scanstring (s : string) : option (pystr * string) :=
  match s with
  | EmptyString => None
  | String c r =>
      if Ascii.eqb c Str.dquote then Some ([], r)
      else if Ascii.eqb c Str.backslash then
        match r with
        | String "u" (String h1 (String h2 (String h3 (String h4 r1)))) =>
            match hex4 h1 h2 h3 h4 with
            | None => None
            | Some n =>
                if is_high_surrogate n then
                  match r1 with
                  | String b (String u (String k1 (String k2 (String k3 (String k4 r2))))) =>
                      if Ascii.eqb b Str.backslash && Ascii.eqb u "u" then
                        match hex4 k1 k2 k3 k4 with
                        | None => None
                        | Some m =>
                            if is_low_surrogate m
                            then cons_code (join_surrogates n m) (scanstring r2)
                            else cons_code n (scanstring r1)
                        end
                      else cons_code n (scanstring r1)
                  | _ => cons_code n (scanstring r1)
                  end
                else cons_code n (scanstring r1)
            end
        | String e r1 =>
            match unescape e with
            | Some n => cons_code n (scanstring r1)
            | None => None
            end
        | EmptyString => None
        end
      else if (nat_of_ascii c <? 32)%nat then None
      else cons_code (N_of_ascii c) (scanstring r)
  end.

Definition digit_value (c : ascii) : option Z :=
  let n := nat_of_ascii c in
  if (48 <=? n)%nat && (n <=? 57)%nat then Some (Z.of_nat (n - 48)) else None.

Fixpoint scan_digits (s : string) (acc : Z) : Z * string :=
  match s with
  | String c r =>
      match digit_value c with
      | Some d => scan_digits r (acc * 10 + d)
      | None => (acc, s)
      end
  | EmptyString => (acc, s)
  end.

(** The integer part of [NUMBER_RE]: an optional minus sign, then a single
    zero or a digit string without a leading zero; a fraction or an
    exponent after it is refused. *)
Definition scan_number (s : string) : option (pyobj * string) :=
  let '(neg, s1) := match s with
                    | String "-" r => (true, r)
                    | _ => (false, s)
                    end in
  let finish (n : Z) (rest : string) :=
    match rest with
    | String "." _ | String "e" _ | String "E" _ => None
    | _ => Some (PyInt (if neg then - n else n)%Z, rest)
    end in
  match s1 with
  | String "0" r => finish 0%Z r
  | String c r =>
      match digit_value c with
      | Some d => let '(n, rest) := scan_digits r d in finish n rest
      | None => None
      end
  | EmptyString => None
  end.

(** [dct[k] = v] on an insertion-ordered dict *)
Fixpoint dict_set (k : pystr) (v : pyobj) (items : list (pystr * pyobj))
    : list (pystr * pyobj) :=
  match items with
  | [] => [(k, v)]
  | (k', v') :: r => if str_eqb k k' then (k, v) :: r else (k', v') :: dict_set k v r
  end.

(** [s.startswith(lit)], returning the rest *)
Fixpoint strip_prefix (lit s : string) : option string :=
  match lit, s with
  | EmptyString, _ => Some s
  | String a l, String b r => if Ascii.eqb a b then strip_prefix l r else None
  | String _ _, EmptyString => None
  end.

(** [scan_once], [JSONObject] and [JSONArray]; [fuel] bounds the nesting
    and the number of items. *)
Fixpoint scan_once (fuel : nat) (s : string) {struct fuel} : option (pyobj * string) :=
  match fuel with
  | O => None
  | S f =>
      match s with
      | EmptyString => None
      | String c r =>
          if Ascii.eqb c Str.dquote then
            match scanstring r with
            | Some (x, rest) => Some (PyStr x, rest)
            | None => None
            end
          else match c with
               | "{" =>
                   match skip_ws r with
                   | String "}" rest => Some (PyDict [], rest)
                   | r1 => match parse_members f r1 [] with
                           | Some (items, rest) => Some (PyDict items, rest)
                           | None => None
                           end
                   end
               | "[" =>
                   match skip_ws r with
                   | String "]" rest => Some (PyList [], rest)
                   | r1 => match parse_elements f r1 [] with
                           | Some (l, rest) => Some (PyList l, rest)
                           | None => None
                           end
                   end
               | "n" => match strip_prefix "ull" r with
                        | Some rest => Some (PyNone, rest)
                        | None => None
                        end
               | "t" => match strip_prefix "rue" r with
                        | Some rest => Some (PyBool true, rest)
                        | None => None
                        end
               | "f" => match strip_prefix "alse" r with
                        | Some rest => Some (PyBool false, rest)
                        | None => None
                        end
               | _ => scan_number s
               end%char
      end
  end

with parse_members (fuel : nat) (s : string) (acc : list (pystr * pyobj))
    {struct fuel} : option (list (pystr * pyobj) * string) :=
  match fuel with
  | O => None
  | S f =>
      match s with
      | String c r =>
          if Ascii.eqb c Str.dquote then
            match scanstring r with
            | Some (k, r1) =>
                match skip_ws r1 with
                | String ":" r2 =>
                    match scan_once f (skip_ws r2) with
                    | Some (v, r3) =>
                        match skip_ws r3 with
                        | String "}" rest => Some (dict_set k v acc, rest)
                        | String "," r4 => parse_members f (skip_ws r4) (dict_set k v acc)
                        | _ => None
                        end
                    | None => None
                    end
                | _ => None
                end
            | None => None
            end
          else None
      | EmptyString => None
      end
  end

with parse_elements (fuel : nat) (s : string) (acc : list pyobj)
    {struct fuel} : option (list pyobj * string) :=
  match fuel with
  | O => None
  | S f =>
      match scan_once f s with
      | Some (v, r1) =>
          match skip_ws r1 with
          | String "]" rest => Some ((acc ++ [v])%list, rest)
          | String "," r2 => parse_elements f (skip_ws r2) (acc ++ [v])%list
          | _ => None
          end
      | None => None
      end
  end.

(** [json.loads(s)]: one value between optional whitespace, nothing after *)
Definition loads (s : string) : option pyobj :=
  match scan_once (S (String.length s)) (skip_ws s) with
  | Some (v, rest) =>
      match skip_ws rest with
      | EmptyString => Some v
      | _ => None
      end
  | None => None
  end.

End Py.

(** ** Exceptions *)

Inductive result (A : Type) : Type :=
| Ok (a : A)
| Raise (exn : string).

Arguments Ok {A} a.
Arguments Raise {A} exn.

Definition bind {A B} (m : result A) (k : A -> result B) : result B :=
  match m with
  | Ok a => k a
  | Raise e => Raise e
  end.

Notation "'let*' x := m 'in' k" := (bind m (fun x => k))
  (at level 10, x name, m at level 100, k at level 200).

(** ** Flask and Werkzeug *)

Module Flask.

Import Py.

(** *** Requests and responses *)

(** A request as the WSGI environ gives it: [REQUEST_METHOD],
    [PATH_INFO], [QUERY_STRING], the [HTTP_] variables made from the
    header lines ([HTTP_HOST], [HTTP_CONNECTION], ...) and the body. *)
Record Request := {
  request_method : string;
  path_info : string;
  query_string : string;
  http : gmap string string;
  request_data : string
}.

(** [Request.method], which routing uses: the method in upper case. *)
Definition method (r : Request) : string := Str.upper (request_method r).

(** [Request.path]: one leading slash, then [PATH_INFO] without its own. *)
Definition path (r : Request) : string :=
  String "/" (Str.lstrip "/" (path_info r)).

(** The path [MapAdapter.match] works on: as [Request.path], but empty
    for an empty [PATH_INFO]. *)
Definition path_part (r : Request) : string :=
  match path_info r with
  | EmptyString => EmptyString
  | _ => path r
  end.

Record Response := {
  status_code : nat;
  headers : list (string * string);
  data : string
}.

(** [Headers.get]: names compare without case. *)
Fixpoint header_get (name : string) (hs : list (string * string)) : option string :=
  match hs with
  | [] => None
  | (k, v) :: r => if String.eqb (Str.lower k) (Str.lower name) then Some v
                   else header_get name r
  end.

(** [Response.content_type] and [Response.mimetype] (the content type
    without its parameters). *)
Definition content_type (r : Response) : option string :=
  header_get "Content-Type" (headers r).

Definition mimetype (r : Response) : option string :=
  match content_type r with
  | Some ct => Some (Str.strip (Str.before ";" ct))
  | None => None
  end.

(** [werkzeug.utils.get_content_type]: text types carry the charset. *)
Definition charset_mimetypes : list string :=
  ["application/ecmascript"; "application/javascript"; "application/sql";
   "application/xml"; "application/xml-dtd";
   "application/xml-external-parsed-entity"].

Definition get_content_type (mime charset : string) : string :=
  if String.prefix "text/" mime
     || existsb (String.eqb mime) charset_mimetypes
     || Str.has_suffix "+xml" mime
  then mime ++ "; charset=" ++ charset
  else mime.

(** [Response(body, status=status, mimetype=mime)]; [body] is the encoded
    text. *)
Definition make_Response (body : string) (status : nat) (mime : string) : Response :=
  {| status_code := status;
     headers := [("Content-Type", get_content_type mime "utf-8")];
     data := body |}.

Definition default_mimetype : string := "text/html".

(** Statuses that never carry a body. *)
Definition bodyless (status : nat) : bool :=
  ((100 <=? status)%nat && (status <? 200)%nat)
  || (status =? 204)%nat || (status =? 304)%nat.

(** [Response.get_wsgi_response]: the content length is filled in, and a
    request whose [REQUEST_METHOD] is [HEAD] gets the headers without the
    body. *)
Definition get_wsgi_response (req : Request) (r : Response) : Response :=
  {| status_code := status_code r;
     headers :=
       match header_get "Content-Length" (headers r) with
       | Some _ => headers r
       | None =>
           if bodyless (status_code r) then headers r
           else (headers r ++ [("Content-Length", Str.of_nat (String.length (data r)))])%list
       end;
     data := if String.eqb (request_method req) "HEAD" || bodyless (status_code r)
             then "" else data r |}.

(** *** The process and the platform *)

Record Config := {
  DEBUG : bool;
  SERVER_NAME : option string
}.

(** [os.environ], [sys.argv], what the nearest [.env] and [.flaskenv]
    files define (empty without python-dotenv or without such a file), and
    whether the operating system lets the process bind an address. *)
Record Process := {
  os_environ : gmap string string;
  sys_argv : list string;
  dotenv_files : gmap string string;
  can_bind : string -> nat -> bool
}.

(** What is read each time a reply is made: the clock, as the server
    prints it, and the order in which the interpreter iterates a set. *)
Record Moment := {
  date : string;
  set_order : nat
}.

(** Behaviour of the installed libraries and of the machine that the
    model takes as given. *)
Record Platform := {
  (* whether the [idna] codec encodes a host name that is not ASCII *)
  idna_unicode : string -> bool;
  (* the reply of [send_static_file(filename)], a 404 when there is no
     such file *)
  send_static_file : string -> Request -> Response;
  (* what [DebuggedApplication] answers by itself, if it does *)
  debugger : Request -> option Response;
  (* [MapAdapter.make_redirect_url(path)] *)
  redirect_url : Request -> string -> string;
  (* [socket.fromfd(fd).getsockname()], if the descriptor is a socket *)
  socket_of_fd : string -> option (string * nat);
  (* [WSGIRequestHandler.version_string()] *)
  server_version : string
}.

(** [helpers.get_debug_flag] *)
Definition get_debug_flag (env : gmap string string) : bool :=
  match env !! "FLASK_DEBUG" with
  | Some val =>
      negb (String.eqb val "")
      && negb (existsb (String.eqb (Str.lower val)) ["0"; "false"; "no"])
  | None => false
  end.

(** [helpers.get_load_dotenv(True)] *)
Definition get_load_dotenv (env : gmap string string) : bool :=
  match env !! "FLASK_SKIP_DOTENV" with
  | Some val =>
      String.eqb val ""
      || existsb (String.eqb (Str.lower val)) ["0"; "false"; "no"]
  | None => true
  end.

(** [os.environ] once [Flask.run] has loaded the dotenv files: their
    variables join the environment without replacing any. *)
Definition environ_after_dotenv (proc : Process) : gmap string string :=
  if get_load_dotenv (os_environ proc)
  then os_environ proc ∪ dotenv_files proc
  else os_environ proc.

(** The debug flag [Flask.run] settles on, given the flag of the
    application: with dotenv loading on, a [FLASK_DEBUG] in the
    environment decides. *)
Definition run_debug (current : bool) (proc : Process) : bool :=
  if get_load_dotenv (os_environ proc) then
    match environ_after_dotenv proc !! "FLASK_DEBUG" with
    | Some _ => get_debug_flag (environ_after_dotenv proc)
    | None => current
    end
  else current.

(** *** Views *)

(** What a view may return: a text, given by its UTF-8 bytes, or a
    response object. *)
Inductive ResponseReturnValue :=
| RvStr (s : string)
| RvResponse (r : Response).

(** A view function: its [__name__] and its body, run with the
    application and request contexts pushed and the arguments the URL
    rule extracted. *)
Record ViewFunc := {
  view_name : string;
  view_call : Config -> Request -> list (string * string) -> ResponseReturnValue
}.

(** [DefaultJSONProvider.response], which [jsonify] calls: compact text
    out of debug mode, indented text in debug mode, keys sorted, a final
    newline, mimetype [application/json]. *)
Definition json_dump_args (cfg : Config) : dump_args :=
  if DEBUG cfg
  then {| indent := Some 2; separators := None; sort_keys := true |}
  else {| indent := None; separators := Some (",", ":"); sort_keys := true |}.

Definition jsonify (cfg : Config) (obj : pyobj) : Response :=
  make_Response (dumps (json_dump_args cfg) obj ++ Str.chr Str.newline)
                200 "application/json".

(** [Flask.make_response] *)
Definition make_response (rv : ResponseReturnValue) : Response :=
  match rv with
  | RvStr s => make_Response s 200 default_mimetype
  | RvResponse r => r
  end.

(** *** Sets of method names *)

(** A Python set of method names is kept as a sorted list without
    repeats; [iterate_set] lists it in the order the interpreter iterates
    it, which the hash seed of the process decides. *)
Fixpoint set_add (m : string) (l : list string) : list string :=
  match l with
  | [] => [m]
  | x :: r => if String.eqb m x then l
              else if String.ltb m x then m :: l
              else x :: set_add m r
  end.

Definition set_union (a b : list string) : list string :=
  fold_right set_add b a.

Definition set_of (l : list string) : list string := set_union l [].

Definition set_mem (m : string) (l : list string) : bool :=
  existsb (String.eqb m) l.

Fixpoint insert_at {A} (n : nat) (x : A) (l : list A) : list A :=
  match n, l with
  | O, _ => x :: l
  | S k, y :: r => y :: insert_at k x r
  | S _, [] => [x]
  end.

Fixpoint iterate_set {A} (order : nat) (l : list A) : list A :=
  match l with
  | [] => []
  | x :: r =>
      insert_at (order mod S (length r)) x (iterate_set (order / S (length r)) r)
  end.

(** *** URL rules: a literal path, or a literal prefix followed by one
    [<path:name>] argument *)

Inductive Pattern :=
| Literal (s : string)
| PathArgument (prefix name : string).

Fixpoint contains (c : ascii) (s : string) : bool :=
  match s with
  | String a r => Ascii.eqb a c || contains c r
  | EmptyString => false
  end.

Definition parse_rule (text : string) : option Pattern :=
  if negb (contains "<" text) then Some (Literal text)
  else
    match strip_prefix "path:" (Str.after "<" text) with
    | Some arg =>
        let name := Str.before ">" arg in
        if String.eqb arg (name ++ ">") && negb (String.eqb name "")
        then Some (PathArgument (Str.before "<" text) name)
        else None
    | None => None
    end.

Record Rule := {
  rule : string;
  pattern : Pattern;
  methods : list string;
  endpoint : string;
  strict_slashes : bool;
  merge_slashes : bool;
  websocket : bool;
  provide_automatic_options : bool
}.

Record App := {
  import_name : string;
  config : Config;
  url_map : list Rule;
  view_functions : gmap string ViewFunc;
  got_first_request : bool
}.

(** [Flask.add_url_rule(rule, view_func=f, methods=ms)]: the endpoint is
    the view's name, the methods default to [GET], Werkzeug adds [HEAD]
    to a rule that takes [GET], Flask adds [OPTIONS] and answers it
    itself.  A rule must start with a slash.  Registering after the first
    request raises, and so does registering under a taken endpoint (Flask
    lets the same function through again; the model does not compare
    functions). *)
Definition add_url_rule (rule_s : string) (ms : option (list string))
    (f : ViewFunc) (app : App) : result App :=
  if got_first_request app then Raise "AssertionError"
  else if negb (String.prefix "/" rule_s) then Raise "ValueError"
  else
    match parse_rule rule_s with
    | None => Raise "NotModelled"
    | Some pat =>
        let given := set_of (map Str.upper (match ms with Some l => l | None => ["GET"] end)) in
        let auto := negb (set_mem "OPTIONS" given) in
        let with_options := if auto then set_add "OPTIONS" given else given in
        let with_head := if set_mem "GET" with_options && negb (set_mem "HEAD" with_options)
                         then set_add "HEAD" with_options else with_options in
        let r := {| rule := rule_s; pattern := pat; methods := with_head;
                    endpoint := view_name f;
                    strict_slashes := true; merge_slashes := true; websocket := false;
                    provide_automatic_options := auto |} in
        match view_functions app !! view_name f with
        | Some _ => Raise "AssertionError"
        | None =>
            Ok {| import_name := import_name app;
                  config := config app;
                  url_map := (url_map app ++ [r])%list;
                  view_functions := <[view_name f := f]> (view_functions app);
                  got_first_request := got_first_request app |}
        end
    end.

(** [@app.route(rule)] applied to [f] *)
Definition route (rule_s : string) (f : ViewFunc) (app : App) : result App :=
  add_url_rule rule_s None f app.

(** The view Flask registers for the files of the [static] folder. *)
Definition static_view (pf : Platform) : ViewFunc :=
  {| view_name := "static";
     view_call := fun _ req args =>
       RvResponse (send_static_file pf
                     (match args with
                      | (_, filename) :: _ => filename
                      | [] => ""
                      end) req) |}.

(** [Flask(import_name)]: the debug flag comes from the environment, and
    the rule [/static/<path:filename>] is registered at once. *)
Definition Flask (name : string) (pf : Platform) (proc : Process) : App :=
  let bare := {| import_name := name;
                 config := {| DEBUG := get_debug_flag (os_environ proc);
                              SERVER_NAME := None |};
                 url_map := [];
                 view_functions := ∅;
                 got_first_request := false |} in
  match add_url_rule "/static/<path:filename>" None (static_view pf) bare with
  | Ok a => a
  | Raise _ => bare
  end.

(** *** URL matching *)

Inductive RoutingException :=
| NotFound
| MethodNotAllowed (valid_methods : list string)
| RequestRedirect (new_path : string)
| WebsocketMismatch
| BadHost.

Inductive PathMatch :=
| Exact (args : list (string * string))
| SlashRequired
| NoPathMatch.

(** A literal rule matches its own text; one ending in a slash visited
    without it asks for a redirect when strict and matches otherwise; one
    without a final slash visited with one matches only when not strict.
    A path argument takes what follows the prefix when that is not empty
    and does not start with a slash. *)
Definition match_rule (r : Rule) (p : string) : PathMatch :=
  match pattern r with
  | Literal s =>
      if String.eqb s p then Exact []
      else if String.eqb s (p ++ "/")
           then (if strict_slashes r then SlashRequired else Exact [])
      else if String.eqb (s ++ "/") p
           then (if strict_slashes r then NoPathMatch else Exact [])
      else NoPathMatch
  | PathArgument prefix name =>
      match strip_prefix prefix p with
      | Some (String c v) =>
          if Ascii.eqb c "/" then NoPathMatch else Exact [(name, String c v)]
      | _ => NoPathMatch
      end
  end.

(** One pass over the rules (Werkzeug walks a state machine; the rules of
    this program take disjoint paths, so the order does not show): the
    first rule that takes the path, the method and the kind of request.
    The methods of the rules that take the path but not the method are
    collected in [have], and [ws] records a rule that failed only on the
    kind of request. *)
Fixpoint find_rule (rules : list Rule) (is_ws : bool) (m p : string)
    (have : list string) (ws : bool)
    : option (Rule * list (string * string)) * list string * bool :=
  match rules with
  | [] => (None, have, ws)
  | r :: rest =>
      match match_rule r p with
      | Exact args =>
          if negb (set_mem m (methods r))
          then find_rule rest is_ws m p (set_union (methods r) have) ws
          else if negb (Bool.eqb (websocket r) is_ws)
          then find_rule rest is_ws m p have true
          else (Some (r, args), have, ws)
      | _ => find_rule rest is_ws m p have ws
      end
  end.

Definition slash_required (rules : list Rule) (is_ws : bool) (m p : string) : bool :=
  existsb (fun r => match match_rule r p with
                    | SlashRequired =>
                        Bool.eqb (websocket r) is_ws && set_mem m (methods r)
                    | _ => false
                    end) rules.

(** [re.sub("/{2,}?", "/", path)]: each pair of slashes, left to right,
    becomes one. *)
Fixpoint merge_pairs (s : string) : string :=
  match s with
  | String "/" (String "/" r) => String "/" (merge_pairs r)
  | String c r => String c (merge_pairs r)
  | EmptyString => EmptyString
  end.

(** [NoMatch] as [MapAdapter.match] reports it. *)
Definition no_match (order : nat) (have : list string) (ws : bool) : RoutingException :=
  match have with
  | _ :: _ => MethodNotAllowed (iterate_set order have)
  | [] => if ws then WebsocketMismatch else NotFound
  end.

(** [MapAdapter.match(path, method)] for a request that is or is not a
    WebSocket upgrade: a direct match, else a second try with the slashes
    merged, which can only end in a redirect. *)
Definition match_url (rules : list Rule) (order : nat) (is_ws : bool) (m p : string)
    : RoutingException + (Rule * list (string * string)) :=
  match find_rule rules is_ws m p [] false with
  | (Some hit, _, _) => inr hit
  | (None, have, ws) =>
      if slash_required rules is_ws m p then inl (RequestRedirect (p ++ "/"))
      else
        let p' := merge_pairs p in
        match find_rule rules is_ws m p' have ws with
        | (Some (r, _), have', ws') =>
            if merge_slashes r then inl (RequestRedirect p')
            else inl (no_match order have' ws')
        | (None, have', ws') =>
            if slash_required rules is_ws m p' then inl (RequestRedirect (p' ++ "/"))
            else inl (no_match order have' ws')
        end
  end.

(** [MapAdapter.allowed_methods]: match with a method no rule has. *)
Definition allowed_methods (rules : list Rule) (order : nat) (is_ws : bool) (p : string)
    : list string :=
  match match_url rules order is_ws "--" p with
  | inl (MethodNotAllowed valid) => valid
  | _ => []
  end.

(** *** The adapter of a request *)

(** [bind_to_environ]: the request is a WebSocket upgrade when
    [HTTP_CONNECTION] lists [upgrade] and [HTTP_UPGRADE] is [websocket]. *)
Definition environ_get (req : Request) (key : string) : string :=
  match http req !! key with
  | Some v => v
  | None => ""
  end.

Definition is_websocket (req : Request) : bool :=
  existsb (fun v => String.eqb (Str.strip v) "upgrade")
          (Str.split "," (Str.lower (environ_get req "HTTP_CONNECTION")))
  && String.eqb (Str.lower (environ_get req "HTTP_UPGRADE")) "websocket".

(** [get_host] for the scheme [http] or [ws]: the [Host] header, or the
    address of the server, without a port 80. *)
Definition get_host (server : string * nat) (req : Request) : string :=
  let host := match http req !! "HTTP_HOST" with
              | Some h => h
              | None => fst server ++ ":" ++ Str.of_nat (snd server)
              end in
  if Str.has_suffix ":80" host then Str.drop_last 3 host else host.

(** The [idna] codec on an ASCII name: every label but the last has 1 to
    63 characters, the last at most 63. *)
Fixpoint labels_ok (labels : list string) : bool :=
  match labels with
  | [] => true
  | [l] => (String.length l <? 64)%nat
  | l :: rest =>
      (0 <? String.length l)%nat && (String.length l <? 64)%nat && labels_ok rest
  end.

(** [Map.bind]: whether the host name, without its port, encodes. *)
Definition host_ok (pf : Platform) (server : string * nat) (req : Request) : bool :=
  let name := Str.before ":" (Str.lower (get_host server req)) in
  if String.eqb name "" then true
  else if Str.is_ascii name then labels_ok (Str.split "." name)
  else idna_unicode pf name.

(** [RequestContext.match_request] after [create_url_adapter]: a host that
    does not encode leaves [BadHost] as the routing exception. *)
Definition match_request (pf : Platform) (rules : list Rule) (server : string * nat)
    (order : nat) (req : Request)
    : RoutingException + (Rule * list (string * string)) :=
  if host_ok pf server req
  then match_url rules order (is_websocket req) (method req) (path_part req)
  else inl BadHost.

(** *** Error responses *)

(** [HTTPException.get_body] *)
Definition get_body (code : nat) (name description : string) : string :=
  let nl := Str.chr Str.newline in
  "<!doctype html>" ++ nl ++ "<html lang=en>" ++ nl
  ++ "<title>" ++ Str.of_nat code ++ " " ++ name ++ "</title>" ++ nl
  ++ "<h1>" ++ name ++ "</h1>" ++ nl
  ++ "<p>" ++ description ++ "</p>" ++ nl.

Definition html_headers : list (string * string) :=
  [("Content-Type", "text/html; charset=utf-8")].

(** [markupsafe.escape] *)
Fixpoint escape (s : string) : string :=
  match s with
  | EmptyString => EmptyString
  | String c r =>
      (if Ascii.eqb c "&" then "&amp;"
       else if Ascii.eqb c "<" then "&lt;"
       else if Ascii.eqb c ">" then "&gt;"
       else if Ascii.eqb c "'" then "&#39;"
       else if Ascii.eqb c Str.dquote then "&#34;"
       else Str.chr c) ++ escape r
  end.

(** [werkzeug.utils.redirect(location, 308)] *)
Definition redirect (location : string) : Response :=
  let nl := Str.chr Str.newline in
  let q := Str.chr Str.dquote in
  {| status_code := 308;
     headers := (html_headers ++ [("Location", location)])%list;
     data := "<!doctype html>" ++ nl ++ "<html lang=en>" ++ nl
             ++ "<title>Redirecting...</title>" ++ nl
             ++ "<h1>Redirecting...</h1>" ++ nl
             ++ "<p>You should be redirected automatically to the target URL: "
             ++ "<a href=" ++ q ++ escape location ++ q ++ ">" ++ escape location
             ++ "</a>. If not, click the link." ++ nl |}.

Definition bad_request : Response :=
  {| status_code := 400; headers := html_headers;
     data := get_body 400 "Bad Request"
       "The browser (or proxy) sent a request that this server could not understand." |}.

Definition not_found : Response :=
  {| status_code := 404; headers := html_headers;
     data := get_body 404 "Not Found"
       "The requested URL was not found on the server. If you entered the URL manually please check your spelling and try again." |}.

(** [HTTPException.get_response] for the routing exceptions *)
Definition exception_response (pf : Platform) (req : Request) (e : RoutingException)
    : Response :=
  match e with
  | NotFound => not_found
  | MethodNotAllowed valid =>
      {| status_code := 405;
         headers := (html_headers ++ [("Allow", Str.join ", " valid)])%list;
         data := get_body 405 "Method Not Allowed"
           "The method is not allowed for the requested URL." |}
  | RequestRedirect new_path => redirect (redirect_url pf req new_path)
  | WebsocketMismatch => bad_request
  | BadHost => bad_request
  end.

Definition internal_server_error : Response :=
  {| status_code := 500; headers := html_headers;
     data := get_body 500 "Internal Server Error"
       "The server encountered an internal error and was unable to complete your request. Either the server is overloaded or there is an error in the application." |}.

(** *** Dispatch *)

(** What answered a request: a view, Flask's own [OPTIONS] reply, the
    handler of a routing exception, or the debugger of the server. *)
Inductive Handler :=
| ByView (endpoint : string)
| ByAutomaticOptions
| ByException (e : RoutingException)
| ByServerError
| ByDebugger.

(** [Flask.make_default_options_response] *)
Definition make_default_options_response (app : App) (order : nat) (req : Request)
    : Response :=
  let r := make_Response "" 200 default_mimetype in
  {| status_code := status_code r;
     headers :=
       (headers r
        ++ [("Allow",
             Str.join ", "
               (allowed_methods (url_map app) order (is_websocket req) (path_part req)))])%list;
     data := data r |}.

(** [Flask.dispatch_request] followed by [finalize_request]; [server] is
    the address of the server the request came through. *)
Definition dispatch_request (pf : Platform) (app : App) (server : string * nat)
    (order : nat) (req : Request) : Handler * Response :=
  match match_request pf (url_map app) server order req with
  | inl e => (ByException e, exception_response pf req e)
  | inr (r, args) =>
      if provide_automatic_options r && String.eqb (method req) "OPTIONS"
      then (ByAutomaticOptions, make_default_options_response app order req)
      else match view_functions app !! endpoint r with
           | Some f =>
               (ByView (endpoint r), make_response (view_call f (config app) req args))
           | None => (ByServerError, internal_server_error)
           end
  end.

(** [Flask.full_dispatch_request]: the first request closes the setup. *)
Definition full_dispatch_request (pf : Platform) (app : App) (server : string * nat)
    (order : nat) (req : Request) : App * (Handler * Response) :=
  ({| import_name := import_name app;
      config := config app;
      url_map := url_map app;
      view_functions := view_functions app;
      got_first_request := true |},
   dispatch_request pf app server order req).

(** [Flask.wsgi_app]: the application's reply to one request. *)
Definition wsgi_app (pf : Platform) (app : App) (server : string * nat)
    (order : nat) (req : Request) : App * (Handler * Response) :=
  let served := full_dispatch_request pf app server order req in
  (fst served, (fst (snd served), get_wsgi_response req (snd (snd served)))).

(** *** Werkzeug's development server *)

Record Server := {
  application : App;
  address : string * nat;      (* [server_address] *)
  inherited : bool;            (* the socket came by descriptor *)
  use_debugger : bool;
  use_reloader : bool;
  threaded : bool
}.

(** The requests [DebuggedApplication] may answer itself: those with a
    query string (it looks for [__debugger__=yes]) and the console path. *)
Definition debugger_may_answer (req : Request) : bool :=
  negb (String.eqb (query_string req) "") || String.eqb (path req) "/console".

(** [WSGIRequestHandler.run_wsgi]: the status line is followed by the
    [Server] and [Date] headers, the headers of the reply, a chunked
    transfer encoding when the length is not given, and
    [Connection: close]. *)
Definition send (pf : Platform) (mo : Moment) (req : Request) (r : Response) : Response :=
  let chunked :=
    match header_get "Content-Length" (headers r) with
    | Some _ => false
    | None => negb (String.eqb (request_method req) "HEAD"
                    || bodyless (status_code r))
    end in
  {| status_code := status_code r;
     headers :=
       ([("Server", server_version pf); ("Date", date mo)]
        ++ headers r
        ++ (if chunked then [("Transfer-Encoding", "chunked")] else [])
        ++ [("Connection", "close")])%list;
     data := data r |}.

(** One request through the server: the debugger middleware, when it is
    on, may answer itself; otherwise the application answers.  With the
    reloader on, the replies come from a child process that runs the same
    module on the same socket. *)
Definition handle (pf : Platform) (srv : Server) (mo : Moment) (req : Request)
    : Server * (Handler * Response) :=
  let passed := wsgi_app pf (application srv) (address srv) (set_order mo) req in
  let reply :=
    if use_debugger srv && debugger_may_answer req then
      match debugger pf req with
      | Some r => (ByDebugger, r)
      | None => snd passed
      end
    else snd passed in
  ({| application := fst passed;
      address := address srv;
      inherited := inherited srv;
      use_debugger := use_debugger srv;
      use_reloader := use_reloader srv;
      threaded := threaded srv |},
   (fst reply, send pf mo req (snd reply))).

(** [serve_forever] on the requests that come in, each at its moment. *)
Fixpoint serve (pf : Platform) (srv : Server) (reqs : list (Moment * Request))
    : list Response :=
  match reqs with
  | [] => []
  | (mo, req) :: rest =>
      snd (snd (handle pf srv mo req)) :: serve pf (fst (handle pf srv mo req)) rest
  end.

(** *** Flask.run *)

(** [int(s)] on a string of decimal digits *)
Fixpoint int_digits (s : string) (acc : nat) : option nat :=
  match s with
  | EmptyString => Some acc
  | String c r =>
      let n := nat_of_ascii c in
      if (48 <=? n)%nat && (n <=? 57)%nat then int_digits r (acc * 10 + (n - 48)) else None
  end.

Definition int_of_string (s : string) : result nat :=
  match s with
  | EmptyString => Raise "ValueError"
  | _ => match int_digits s 0 with
         | Some n => Ok n
         | None => Raise "ValueError"
         end
  end.

(** [werkzeug.serving.run_simple]: in a reloader child
    ([WERKZEUG_RUN_MAIN] is [true]) the socket is taken from the descriptor
    [WERKZEUG_SERVER_FD]; otherwise the address is bound, and the process
    exits when that fails. *)
Definition run_simple (pf : Platform) (proc : Process) (env : gmap string string)
    (host : string) (port : nat) (app : App) (debug : bool) : result Server :=
  let make (addr : string * nat) (fd : bool) :=
    {| application := app; address := addr; inherited := fd;
       use_debugger := debug; use_reloader := debug; threaded := true |} in
  if bool_decide (env !! "WERKZEUG_RUN_MAIN" = Some "true") then
    match env !! "WERKZEUG_SERVER_FD" with
    | None => Raise "KeyError"
    | Some fd =>
        match socket_of_fd pf fd with
        | Some addr => Ok (make addr true)
        | None => Raise "OSError"
        end
    end
  else if can_bind proc host port then Ok (make (host, port) false)
  else Raise "SystemExit".

(** [Flask.run(host, port)]: nothing happens under the [flask] command
    line ([FLASK_RUN_FROM_CLI] is [true]); otherwise the debug flag is
    settled, a missing host or port falls back on [SERVER_NAME] and then
    on [127.0.0.1] and [5000], and [run_simple] serves.  The result is the
    server, if one was started. *)
Definition run (pf : Platform) (app : App) (proc : Process)
    (host : option string) (port_arg : option nat) : result (App * option Server) :=
  if bool_decide (os_environ proc !! "FLASK_RUN_FROM_CLI" = Some "true")
  then Ok (app, None)
  else
    let debug := run_debug (DEBUG (config app)) proc in
    let sn_host := match SERVER_NAME (config app) with
                   | Some sn => Str.before ":" sn
                   | None => ""
                   end in
    let sn_port := match SERVER_NAME (config app) with
                   | Some sn => Str.after ":" sn
                   | None => ""
                   end in
    let h := match host with
             | Some (String c r) => String c r
             | _ => if String.eqb sn_host "" then "127.0.0.1" else sn_host
             end in
    let* p := match port_arg with
              | Some n => Ok n
              | None => if String.eqb sn_port "" then Ok 5000 else int_of_string sn_port
              end in
    let app' := {| import_name := import_name app;
                   config := {| DEBUG := debug; SERVER_NAME := SERVER_NAME (config app) |};
                   url_map := url_map app;
                   view_functions := view_functions app;
                   got_first_request := got_first_request app |} in
    let* srv := run_simple pf proc (environ_after_dotenv proc) h p app' debug in
    Ok (app', Some srv).

End Flask.

(** ** server.py *)

Module Server.

Import Py Flask.

(** [def api(): return jsonify({"message": ...})] *)
Definition api_payload : pyobj :=
  PyDict [(text "message", PyStr (text "Hello from Chinecherem Udegbunam"))].

Definition api : ViewFunc :=
  {| view_name := "api";
     view_call := fun cfg _ _ => RvResponse (jsonify cfg api_payload) |}.

(** [def root(): return "<h1>...</p>"] *)
Definition root_body : string :=
  "<h1>Index served from container</h1><p>Try GET /api</p>".

Definition root : ViewFunc :=
  {| view_name := "root";
     view_call := fun _ _ _ => RvStr root_body |}.

(** The state a run of the module leaves: the global [app] and, when
    [app.run] started one, the server. *)
Record Loaded := {
  app : App;
  listening : option Server
}.

(** The module body, top to bottom; [name] is [__name__]. *)
Definition exec_module (name : string) (pf : Platform) (proc : Process)
    : result Loaded :=
  let app0 := Flask name pf proc in
  let* app1 := route "/api" api app0 in
  let* app2 := route "/" root app1 in
  if String.eqb name "__main__" then
    let* started := run pf app2 proc (Some "0.0.0.0") (Some 5000) in
    Ok {| app := fst started; listening := snd started |}
  else
    Ok {| app := app2; listening := None |}.

(** The whole program on the requests that come in: replies come only
    from a started server. *)
Definition program (name : string) (pf : Platform) (proc : Process)
    (reqs : list (Moment * Request)) : result (list Response) :=
  let* m := exec_module name pf proc in
  match listening m with
  | Some srv => Ok (serve pf srv reqs)
  | None => Ok []
  end.

(** The server a run as the main program starts, if it starts one. *)
Definition started (pf : Platform) (proc : Process) : option Server :=
  match exec_module "__main__" pf proc with
  | Ok m => listening m
  | Raise _ => None
  end.

(** The states of the server of a run as the main program: as [app.run]
    starts it, and after each request. *)
Inductive serving (pf : Platform) (proc : Process) : Server -> Prop :=
| serving_started srv :
    started pf proc = Some srv -> serving pf proc srv
| serving_next srv mo req :
    serving pf proc srv -> serving pf proc (fst (handle pf srv mo req)).

(** The URL map the constructor and the two decorators build. *)
Definition standard_methods : list string := ["GET"; "HEAD"; "OPTIONS"].

Definition static_rule : Rule :=
  {| rule := "/static/<path:filename>";
     pattern := PathArgument "/static/" "filename";
     methods := standard_methods; endpoint := "static";
     strict_slashes := true; merge_slashes := true; websocket := false;
     provide_automatic_options := true |}.

Definition api_rule : Rule :=
  {| rule := "/api"; pattern := Literal "/api";
     methods := standard_methods; endpoint := "api";
     strict_slashes := true; merge_slashes := true; websocket := false;
     provide_automatic_options := true |}.

Definition root_rule : Rule :=
  {| rule := "/"; pattern := Literal "/";
     methods := standard_methods; endpoint := "root";
     strict_slashes := true; merge_slashes := true; websocket := false;
     provide_automatic_options := true |}.

Definition server_rules : list Rule := [static_rule; api_rule; root_rule].

Definition routes_installed (pf : Platform) (a : App) : Prop :=
  url_map a = server_rules
  /\ view_functions a !! "api" = Some api
  /\ view_functions a !! "root" = Some root
  /\ view_functions a !! "static" = Some (static_view pf).

(** The debug flag of the application object once the module ran. *)
Definition debug_mode (name : string) (proc : Process) : bool :=
  if String.eqb name "__main__"
     && negb (bool_decide (os_environ proc !! "FLASK_RUN_FROM_CLI" = Some "true"))
  then run_debug (get_debug_flag (os_environ proc)) proc
  else get_debug_flag (os_environ proc).

(** A request the server takes as an ordinary HTTP request: its host name
    encodes and it is no WebSocket upgrade. *)
Definition plain_http (pf : Platform) (srv : Server) (req : Request) : Prop :=
  host_ok pf (address srv) req = true /\ is_websocket req = false.

(** A request the debugger middleware leaves to the application: the
    debugger is off, or the request has no query string and is not for the
    console, or the debugger does not answer it. *)
Definition left_to_app (pf : Platform) (srv : Server) (req : Request) : Prop :=
  use_debugger srv = false
  \/ debugger_may_answer req = false
  \/ debugger pf req = None.

(** A path under the prefix of the built-in static rule. *)
Definition under_static (p : string) : bool :=
  match strip_prefix "/static/" p with
  | Some _ => true
  | None => false
  end.

(** A path as the router gets it when [PATH_INFO] is not empty. *)
Definition rooted (p : string) : Prop :=
  exists s, p = String "/" s
            /\ match s with
               | String c _ => c <> "/"%char
               | EmptyString => True
               end.

(** A word without a slash. *)
Fixpoint no_slash (w : string) : bool :=
  match w with
  | String c r => negb (Ascii.eqb c "/") && no_slash r
  | EmptyString => true
  end.

(** The rule of each of the two routes. *)
Definition rule_at (p : string) : Rule :=
  if String.eqb p "/api" then api_rule else root_rule.

(** The view of each of the two routes. *)
Definition view_at (p : string) : ViewFunc :=
  if String.eqb p "/api" then api else root.

(** The paths of the two routes, as the router sees them. *)
Definition route_path (p : string) : Prop := p = "/" \/ p = "/api".

(** What holds of the server from its start on. *)
Definition server_invariant (pf : Platform) (proc : Process) (srv : Server) : Prop :=
  routes_installed pf (application srv)
  /\ DEBUG (config (application srv)) = use_debugger srv
  /\ use_debugger srv = debug_mode "__main__" proc
  /\ (inherited srv = false -> address srv = ("0.0.0.0", 5000)).

(** The reply the server sends for the reply [r] of the application at
    a moment when the clock reads [now]. *)
Definition stamped (pf : Platform) (now : string) (r : Response) : Response :=
  {| status_code := status_code r;
     headers := ([("Server", server_version pf); ("Date", now)]
                 ++ headers r ++ [("Connection", "close")])%list;
     data := data r |}.

(** A request with nothing but a method and a path. *)
Definition bare_request (m p : string) : Request :=
  {| request_method := m; path_info := p; query_string := "";
     http := ∅; request_data := "" |}.

(** A request with one more header variable. *)
Definition with_header (key value : string) (req : Request) : Request :=
  {| request_method := request_method req; path_info := path_info req;
     query_string := query_string req;
     http := <[key := value]> (http req);
     request_data := request_data req |}.

(** The request with the headers of a WebSocket handshake. *)
Definition upgrade (req : Request) : Request :=
  with_header "HTTP_CONNECTION" "keep-alive, Upgrade"
    (with_header "HTTP_UPGRADE" "WebSocket" req).

(** The request with a host name that has an empty label. *)
Definition bad_host (req : Request) : Request :=
  with_header "HTTP_HOST" "a..b:5000" req.

(** The request with a query string. *)
Definition with_query (q : string) (req : Request) : Request :=
  {| request_method := request_method req; path_info := path_info req;
     query_string := q; http := http req; request_data := request_data req |}.

(** A process without environment variables, flags or dotenv files, on a
    machine where the address is free. *)
Definition plain_process : Process :=
  {| os_environ := ∅; sys_argv := ["server.py"]; dotenv_files := ∅;
     can_bind := fun _ _ => true |}.

(** The same process started under the marker the [flask] command sets. *)
Definition cli_process : Process :=
  {| os_environ := {["FLASK_RUN_FROM_CLI" := "true"]}; sys_argv := ["server.py"];
     dotenv_files := ∅; can_bind := fun _ _ => true |}.

(** The same process started with [FLASK_DEBUG=1]. *)
Definition debug_process : Process :=
  {| os_environ := {["FLASK_DEBUG" := "1"]}; sys_argv := ["server.py"];
     dotenv_files := ∅; can_bind := fun _ _ => true |}.

(** The same process on a machine where the address is taken. *)
Definition busy_process : Process :=
  {| os_environ := ∅; sys_argv := ["server.py"]; dotenv_files := ∅;
     can_bind := fun _ _ => false |}.

(** A platform with an empty static folder, a debugger that serves its
    style sheet (the text of the sheet is cut short), no non-ASCII host
    names and no inherited sockets. *)
Definition debugger_query : string := "__debugger__=yes&cmd=resource&f=style.css".

Definition plain_platform : Platform :=
  {| idna_unicode := fun _ => false;
     send_static_file := fun _ _ => not_found;
     debugger := fun req =>
       if String.eqb (query_string req) debugger_query
       then Some {| status_code := 200;
                    headers := [("Content-Type", "text/css; charset=utf-8");
                                ("Content-Length", "6")];
                    data := "body{}" |}
       else None;
     redirect_url := fun _ p => "http://localhost:5000" ++ p;
     socket_of_fd := fun _ => None;
     server_version := "Werkzeug/3.0.0 Python/3.12.0" |}.

(** The server a process without settings starts on that platform, with
    the debug flag off or on. *)
Definition plain_app (debug : bool) : App :=
  {| import_name := "__main__";
     config := {| DEBUG := debug; SERVER_NAME := None |};
     url_map := server_rules;
     view_functions :=
       <["root" := root]>
         (<["api" := api]> (<["static" := static_view plain_platform]> ∅));
     got_first_request := false |}.

Definition plain_server (debug : bool) : Server :=
  {| application := plain_app debug; address := ("0.0.0.0", 5000);
     inherited := false; use_debugger := debug; use_reloader := debug;
     threaded := true |}.

Definition noon : Moment := {| date := "Thu, 01 Jan 2026 12:00:00 GMT"; set_order := 0 |}.
Definition later : Moment := {| date := "Thu, 01 Jan 2026 12:00:01 GMT"; set_order := 4 |}.

(** The text [{"message":"Hello from Chinecherem Udegbunam"}] with the given
    text after the colon. *)
Definition message_text (after_colon : string) : string :=
  let q := Str.chr Str.dquote in
  "{" ++ q ++ "message" ++ q ++ ":" ++ after_colon
      ++ q ++ "Hello from Chinecherem Udegbunam" ++ q ++ "}".

(** The body as the specification prints it, with a space after the colon. *)
Definition spec_api_text : string := message_text " ".

(** The body [jsonify] writes out of debug mode. *)
Definition compact_api_body : string := message_text "" ++ Str.chr Str.newline.

(** The body [jsonify] writes in debug mode. *)
Definition indented_api_body : string :=
  let q := Str.chr Str.dquote in
  let nl := Str.chr Str.newline in
  "{" ++ nl ++ "  " ++ q ++ "message" ++ q ++ ": "
      ++ q ++ "Hello from Chinecherem Udegbunam" ++ q ++ nl ++ "}" ++ nl.

End Server.

Import Py Flask Server.

(** * Properties *)

(** ** What a run of the module leaves *)

(** The application object after the constructor and the two decorators. *)
Lemma routes_registered name pf proc :
  exists a1 vf,
    vf !! "api" = Some api /\ vf !! "root" = Some root
    /\ vf !! "static" = Some (static_view pf)
    /\ route "/api" api (Flask name pf proc) = Ok a1
    /\ route "/" root a1
       = Ok {| import_name := name;
               config := {| DEBUG := get_debug_flag (os_environ proc);
                            SERVER_NAME := None |};
               url_map := server_rules;
               view_functions := vf;
               got_first_request := false |}.
Proof.
  eexists.
  exists (<["root" := root]> (<["api" := api]> (<["static" := static_view pf]> ∅))).
  split; [reflexivity|]. split; [reflexivity|]. split; [reflexivity|].
  unfold Flask, route, add_url_rule. cbn.
  repeat (first [ rewrite lookup_empty
                | rewrite lookup_insert_ne by discriminate ]; cbn).
  split; reflexivity.
Qed.

Lemma exec_module_imported name pf proc :
  name <> "__main__" ->
  exists a,
    exec_module name pf proc = Ok {| app := a; listening := None |}
    /\ routes_installed pf a
    /\ got_first_request a = false.
Proof.
  intros Hn.
  destruct (routes_registered name pf proc) as (a1 & vf & Ha & Hr & Hs & E1 & E2).
  unfold exec_module. rewrite E1. cbn [bind]. rewrite E2. cbn [bind].
  apply String.eqb_neq in Hn. rewrite Hn.
  eexists. split; [reflexivity|]. split; [|reflexivity].
  repeat split; assumption.
Qed.

(** A run as the main program, by cases on what [run] meets. *)
Lemma exec_module_main pf proc :
  exists a,
    routes_installed pf a
    /\ DEBUG (config a) = debug_mode "__main__" proc
    /\ exec_module "__main__" pf proc =
       if bool_decide (os_environ proc !! "FLASK_RUN_FROM_CLI" = Some "true")
       then Ok {| app := a; listening := None |}
       else
         let* srv := run_simple pf proc (environ_after_dotenv proc) "0.0.0.0" 5000 a
                       (DEBUG (config a)) in
         Ok {| app := a; listening := Some srv |}.
Proof.
  destruct (routes_registered "__main__" pf proc)
    as (a1 & vf & Ha & Hr & Hs & E1 & E2).
  unfold exec_module. rewrite E1. cbn [bind]. rewrite E2.
  cbn [bind String.eqb Ascii.eqb Bool.eqb].
  exists {| import_name := "__main__";
            config := {| DEBUG := debug_mode "__main__" proc; SERVER_NAME := None |};
            url_map := server_rules;
            view_functions := vf;
            got_first_request := false |}.
  split; [repeat split; assumption|]. split; [reflexivity|].
  unfold run, debug_mode. cbn [String.eqb Ascii.eqb Bool.eqb andb config DEBUG SERVER_NAME].
  destruct (bool_decide (os_environ proc !! "FLASK_RUN_FROM_CLI" = Some "true"));
    cbn [negb bind]; [reflexivity|].
  destruct (run_simple _ _ _ _ _ _ _); reflexivity.
Qed.


Lemma run_simple_server pf proc env host port a debug srv :
  run_simple pf proc env host port a debug = Ok srv ->
  application srv = a /\ use_debugger srv = debug
  /\ (inherited srv = false -> address srv = (host, port)).
Proof.
  unfold run_simple.
  destruct (bool_decide _).
  - destruct (env !! "WERKZEUG_SERVER_FD"); [|discriminate].
    destruct (socket_of_fd pf s); [|discriminate].
    intros [= <-]. repeat split. discriminate.
  - destruct (can_bind proc host port); [|discriminate].
    intros [= <-]. repeat split.
Qed.

Lemma serving_invariant pf proc srv :
  serving pf proc srv -> server_invariant pf proc srv.
Proof.
  induction 1 as [srv Hs | srv mo req _ IH].
  - destruct (exec_module_main pf proc) as (a & Hr & Hd & E).
    unfold started in Hs. rewrite E in Hs.
    destruct (bool_decide _).
    + discriminate Hs.
    + destruct (run_simple _ _ _ _ _ _ _) as [srv'|] eqn:R; [|discriminate].
      cbn [bind listening] in Hs. injection Hs as <-.
      destruct (run_simple_server _ _ _ _ _ _ _ _ R) as (Happ & Hdbg & Haddr).
      unfold server_invariant. rewrite Happ, Hdbg.
      split; [exact Hr|]. split; [reflexivity|]. split; [exact Hd | exact Haddr].
  - exact IH.
Qed.

(** ** Paths *)

Lemma lstrip_head x :
  match Str.lstrip "/" x with
  | String c _ => c <> "/"%char
  | EmptyString => True
  end.
Proof.
  induction x as [|a x IH]; [exact I|].
  cbn [Str.lstrip]. destruct (Ascii.eqb a "/") eqn:E; [exact IH|].
  apply Ascii.eqb_neq, E.
Qed.


Lemma path_rooted req : rooted (path req).
Proof. eexists. split; [reflexivity|]. apply lstrip_head. Qed.

Lemma path_part_path req : path_info req <> "" -> path_part req = path req.
Proof. unfold path_part. destruct (path_info req); [contradiction | reflexivity]. Qed.

Lemma path_part_cases req :
  (path_info req = "" /\ path_part req = "" /\ path req = "/")
  \/ (path_info req <> "" /\ path_part req = path req).
Proof.
  unfold path_part, path. destruct (path_info req) eqn:E.
  - left. repeat split.
  - right. split; [discriminate | reflexivity].
Qed.

(** ** Merging slashes *)

Lemma merge_nonslash c r :
  c <> "/"%char -> merge_pairs (String c r) = String c (merge_pairs r).
Proof.
  intros Hc. destruct c as [[] [] [] [] [] [] [] []];
    try reflexivity. contradiction Hc. reflexivity.
Qed.

Lemma merge_slash r : exists r', merge_pairs (String "/" r) = String "/" r'.
Proof.
  destruct r as [|b r]; [eexists; reflexivity|].
  destruct b as [[] [] [] [] [] [] [] []]; eexists; reflexivity.
Qed.

Lemma merge_slash_nonslash s :
  match s with
  | String c _ => c <> "/"%char
  | EmptyString => True
  end ->
  merge_pairs (String "/" s) = String "/" (merge_pairs s).
Proof.
  destruct s as [|c s]; [reflexivity|]. intros Hc.
  destruct c as [[] [] [] [] [] [] [] []];
    try reflexivity. contradiction Hc. reflexivity.
Qed.

Lemma merge_empty s : merge_pairs s = "" -> s = "".
Proof.
  destruct s as [|c s]; [reflexivity|].
  destruct (Ascii.eqb c "/") eqn:E.
  - apply Ascii.eqb_eq in E. subst c.
    destruct (merge_slash s) as [r' ->]. discriminate.
  - apply Ascii.eqb_neq in E. rewrite (merge_nonslash _ _ E). discriminate.
Qed.


(** A word without slashes that starts the merged path starts the path. *)
Lemma merge_strip_word w :
  no_slash w = true ->
  forall s rest,
    strip_prefix w (merge_pairs s) = Some rest ->
    exists s', s = w ++ s' /\ rest = merge_pairs s'.
Proof.
  induction w as [|c w IH]; intros Hw s rest H.
  - exists s. split; [reflexivity|]. cbn in H. congruence.
  - cbn [no_slash] in Hw. apply andb_true_iff in Hw as [Hc Hw].
    apply negb_true_iff, Ascii.eqb_neq in Hc.
    destruct s as [|a s]; [discriminate H|].
    destruct (Ascii.eqb a "/") eqn:Ea.
    + apply Ascii.eqb_eq in Ea. subst a.
      destruct (merge_slash s) as [r' Hr]. rewrite Hr in H.
      cbn [strip_prefix] in H.
      destruct (Ascii.eqb c "/") eqn:Ec; [|discriminate H].
      apply Ascii.eqb_eq in Ec. contradiction.
    + apply Ascii.eqb_neq in Ea. rewrite (merge_nonslash _ _ Ea) in H.
      cbn [strip_prefix] in H.
      destruct (Ascii.eqb c a) eqn:Eca; [|discriminate H].
      apply Ascii.eqb_eq in Eca. subst a.
      destruct (IH Hw s rest H) as (s' & -> & ->).
      exists s'. split; reflexivity.
Qed.

Lemma strip_prefix_refl w : strip_prefix w w = Some "".
Proof.
  induction w as [|c w IH]; [reflexivity|].
  cbn [strip_prefix]. rewrite Ascii.eqb_refl. exact IH.
Qed.

Lemma append_empty_r (s : string) : s ++ "" = s.
Proof.
  induction s as [|c s IH]; [reflexivity|].
  change (String c (s ++ "") = String c s). f_equal. exact IH.
Qed.

(** Merging cannot turn another rooted path into a literal one. *)
Lemma merge_literal w p :
  no_slash w = true -> rooted p ->
  merge_pairs p = String "/" w -> p = String "/" w.
Proof.
  intros Hw (s & -> & Hs) H.
  rewrite (merge_slash_nonslash s Hs) in H. injection H as H.
  assert (Hst : strip_prefix w (merge_pairs s) = Some "")
    by (rewrite H; apply strip_prefix_refl).
  destruct (merge_strip_word w Hw s "" Hst) as (s' & -> & Hm).
  symmetry in Hm. apply merge_empty in Hm. subst s'.
  rewrite append_empty_r. reflexivity.
Qed.

Lemma merge_rooted_nonempty p : rooted p -> merge_pairs p <> "".
Proof.
  intros (s & -> & Hs) H. rewrite (merge_slash_nonslash s Hs) in H. discriminate.
Qed.

Lemma merge_under_static p :
  rooted p -> under_static (merge_pairs p) = true -> under_static p = true.
Proof.
  intros (s & -> & Hs). rewrite (merge_slash_nonslash s Hs).
  unfold under_static.
  change (strip_prefix "/static/" (String "/" ?x)) with (strip_prefix "static/" x).
  destruct (strip_prefix "static/" (merge_pairs s)) as [rest|] eqn:E; [|discriminate].
  intros _.
  assert (E6 : exists mid, strip_prefix "static" (merge_pairs s) = Some mid
                           /\ strip_prefix "/" mid = Some rest).
  { revert E. generalize (merge_pairs s) as t. intros t.
    destruct t as [|c1 [|c2 [|c3 [|c4 [|c5 [|c6 t]]]]]]; cbn [strip_prefix];
      repeat match goal with
             | |- context [Ascii.eqb ?a ?b] => destruct (Ascii.eqb a b)
             end; try discriminate.
    intros E. eexists. split; [reflexivity | exact E]. }
  destruct E6 as (mid & E6 & Eslash).
  destruct (merge_strip_word "static" eq_refl s mid E6) as (s' & -> & ->).
  destruct s' as [|a s'].
  - discriminate Eslash.
  - destruct (Ascii.eqb a "/") eqn:Ea.
    + apply Ascii.eqb_eq in Ea. subst a. reflexivity.
    + apply Ascii.eqb_neq in Ea. rewrite (merge_nonslash _ _ Ea) in Eslash.
      cbn [strip_prefix] in Eslash.
      destruct (Ascii.eqb "/" a) eqn:Ea'; [|discriminate].
      apply Ascii.eqb_eq in Ea'. subst a. contradiction.
Qed.

(** ** Matching against the rules of this program *)

Lemma match_static_none p :
  under_static p = false -> match_rule static_rule p = NoPathMatch.
Proof.
  unfold under_static, match_rule. cbn [pattern static_rule].
  destruct (strip_prefix "/static/" p); [discriminate | reflexivity].
Qed.

Lemma match_api_none p : p <> "/api" -> match_rule api_rule p = NoPathMatch.
Proof.
  intros Hp. unfold match_rule. cbn [pattern api_rule strict_slashes].
  destruct (String.eqb "/api" p) eqn:E1.
  { apply String.eqb_eq in E1. congruence. }
  destruct (String.eqb "/api" (p ++ "/")) eqn:E2.
  { apply String.eqb_eq in E2. exfalso.
    destruct p as [|c1 [|c2 [|c3 [|c4 [|c5 p]]]]]; cbv in E2; discriminate E2. }
  clear E1 E2. destruct (String.eqb _ p); reflexivity.
Qed.

Lemma match_root_none p :
  p <> "" -> p <> "/" -> match_rule root_rule p = NoPathMatch.
Proof.
  intros H0 Hp. unfold match_rule. cbn [pattern root_rule strict_slashes].
  destruct (String.eqb "/" p) eqn:E1.
  { apply String.eqb_eq in E1. congruence. }
  destruct (String.eqb "/" (p ++ "/")) eqn:E2.
  { apply String.eqb_eq in E2. exfalso.
    destruct p as [|c1 [|c2 p]]; [congruence | |]; cbv in E2; discriminate E2. }
  clear E1 E2. destruct (String.eqb _ p); reflexivity.
Qed.

(** A path that is none of the three kinds passes every rule by. *)
Lemma find_rule_unmatched ws m p have wsf :
  p <> "" -> p <> "/" -> p <> "/api" -> under_static p = false ->
  find_rule server_rules ws m p have wsf = (None, have, wsf)
  /\ slash_required server_rules ws m p = false.
Proof.
  intros H0 H1 H2 H3.
  unfold server_rules, find_rule, slash_required, existsb.
  rewrite (match_static_none p H3), (match_api_none p H2), (match_root_none p H0 H1).
  split; reflexivity.
Qed.

Lemma match_url_not_found order ws m p :
  rooted p -> p <> "/" -> p <> "/api" -> under_static p = false ->
  match_url server_rules order ws m p = inl NotFound.
Proof.
  intros Hr H1 H2 H3.
  assert (H0 : p <> "") by (destruct Hr as (s & -> & _); discriminate).
  unfold match_url.
  destruct (find_rule_unmatched ws m p [] false H0 H1 H2 H3) as [-> ->].
  assert (M0 : merge_pairs p <> "") by (apply merge_rooted_nonempty, Hr).
  assert (M1 : merge_pairs p <> "/").
  { intros E. apply H1. apply (merge_literal "" p eq_refl Hr E). }
  assert (M2 : merge_pairs p <> "/api").
  { intros E. apply H2. apply (merge_literal "api" p eq_refl Hr E). }
  assert (M3 : under_static (merge_pairs p) = false).
  { destruct (under_static (merge_pairs p)) eqn:E; [|reflexivity].
    rewrite (merge_under_static p Hr E) in H3. discriminate. }
  destruct (find_rule_unmatched ws m (merge_pairs p) [] false M0 M1 M2 M3) as [-> ->].
  reflexivity.
Qed.


(** On the path of a route: the rule when the method is one of its three
    and the request is no upgrade, a mismatch when it is an upgrade, and
    otherwise the three methods in the order the set gives them. *)
Lemma match_url_route order ws m p :
  p = "/" \/ p = "/api" ->
  match_url server_rules order ws m p
  = if set_mem m standard_methods
    then (if ws then inl WebsocketMismatch else inr (rule_at p, []))
    else inl (MethodNotAllowed (iterate_set order standard_methods)).
Proof.
  intros [-> | ->]; unfold match_url, server_rules, find_rule, slash_required, existsb;
    cbv [match_rule pattern static_rule api_rule root_rule strict_slashes
         strip_prefix String.eqb Ascii.eqb Bool.eqb String.append merge_pairs
         methods websocket merge_slashes rule_at];
    cbv beta iota;
    destruct (set_mem m standard_methods) eqn:Em; cbn [negb];
    destruct ws; cbn [negb Bool.eqb andb orb]; try reflexivity.
Qed.

(** ** One request through the server *)

Lemma handle_left_to_app pf srv mo req :
  left_to_app pf srv req ->
  snd (handle pf srv mo req)
  = (fst (dispatch_request pf (application srv) (address srv) (set_order mo) req),
     send pf mo req
       (get_wsgi_response req
          (snd (dispatch_request pf (application srv) (address srv) (set_order mo) req)))).
Proof.
  intros H. unfold handle. cbn [snd fst].
  destruct H as [H | [H | H]].
  - rewrite H. reflexivity.
  - rewrite H, andb_false_r. reflexivity.
  - rewrite H. destruct (use_debugger srv && debugger_may_answer req); reflexivity.
Qed.

Lemma match_request_route pf server order req :
  host_ok pf server req = true -> route_path (path_part req) ->
  match_request pf server_rules server order req
  = if set_mem (method req) standard_methods
    then (if is_websocket req then inl WebsocketMismatch
          else inr (rule_at (path_part req), []))
    else inl (MethodNotAllowed (iterate_set order standard_methods)).
Proof.
  intros Hh Hp. unfold match_request. rewrite Hh.
  apply match_url_route, Hp.
Qed.

Lemma match_request_unknown pf server order req :
  host_ok pf server req = true ->
  path req <> "/" -> path req <> "/api" -> under_static (path req) = false ->
  match_request pf server_rules server order req = inl NotFound.
Proof.
  intros Hh H1 H2 H3. unfold match_request. rewrite Hh.
  destruct (path_part_cases req) as [(_ & _ & E) | (_ & ->)]; [congruence|].
  apply match_url_not_found; auto using path_rooted.
Qed.

Lemma insert_at_perm {A} n (x : A) l : Permutation (insert_at n x l) (x :: l).
Proof.
  revert n. induction l as [|y l IH]; intros [|n]; cbn [insert_at]; try reflexivity.
  rewrite IH. apply perm_swap.
Qed.

(** The iteration order of a set is one of the orders of its elements. *)
Lemma iterate_set_perm {A} order (l : list A) : Permutation (iterate_set order l) l.
Proof.
  revert order. induction l as [|x l IH]; intros order; [reflexivity|].
  cbn [iterate_set]. rewrite insert_at_perm. constructor. apply IH.
Qed.

Lemma header_get_append name hs v :
  header_get name hs = None -> header_get name (hs ++ [(name, v)]) = Some v.
Proof.
  induction hs as [|[k w] hs IH]; simpl.
  - intros _. rewrite String.eqb_refl. reflexivity.
  - destruct (String.eqb (Str.lower k) (Str.lower name)); [discriminate | exact IH].
Qed.

(** A reply that states its length goes out with the two headers of the
    server in front and [Connection: close] behind. *)
Lemma send_wsgi_response pf mo req r :
  bodyless (status_code r) = false ->
  send pf mo req (get_wsgi_response req r)
  = stamped pf (date mo) (get_wsgi_response req r).
Proof.
  intros Hb. unfold send, stamped, get_wsgi_response.
  cbn [status_code headers data]. rewrite Hb.
  destruct (header_get "Content-Length" (headers r)) eqn:E.
  - rewrite E. reflexivity.
  - rewrite (header_get_append _ _ _ E). reflexivity.
Qed.

(** The three ways a request left to the application is answered. *)
Lemma reply_of_exception pf proc srv mo req e :
  serving pf proc srv -> left_to_app pf srv req ->
  match_request pf server_rules (address srv) (set_order mo) req = inl e ->
  snd (handle pf srv mo req)
  = (ByException e, send pf mo req (get_wsgi_response req (exception_response pf req e))).
Proof.
  intros Hs Hl Hm. rewrite (handle_left_to_app _ _ _ _ Hl).
  destruct (serving_invariant _ _ _ Hs) as ((Hu & _) & _).
  unfold dispatch_request. rewrite Hu, Hm. reflexivity.
Qed.

Lemma rule_at_route p :
  route_path p ->
  provide_automatic_options (rule_at p) = true
  /\ endpoint (rule_at p) = view_name (view_at p).
Proof. intros [-> | ->]; split; reflexivity. Qed.

Lemma reply_of_view pf proc srv mo req :
  serving pf proc srv -> plain_http pf srv req -> left_to_app pf srv req ->
  route_path (path_part req) ->
  set_mem (method req) standard_methods = true -> method req <> "OPTIONS" ->
  snd (handle pf srv mo req)
  = (ByView (view_name (view_at (path_part req))),
     send pf mo req
       (get_wsgi_response req
          (make_response
             (view_call (view_at (path_part req)) (config (application srv)) req [])))).
Proof.
  intros Hs [Hh Hw] Hl Hp Hm Ho. rewrite (handle_left_to_app _ _ _ _ Hl).
  destruct (serving_invariant _ _ _ Hs) as ((Hu & Ha & Hr & _) & _).
  unfold dispatch_request.
  rewrite Hu, (match_request_route _ _ _ _ Hh Hp), Hm, Hw.
  destruct (rule_at_route _ Hp) as [-> ->].
  apply String.eqb_neq in Ho. rewrite Ho. cbn [andb].
  destruct Hp as [-> | ->]; cbn [view_at String.eqb Ascii.eqb Bool.eqb view_name api root].
  - rewrite Hr. reflexivity.
  - rewrite Ha. reflexivity.
Qed.

Lemma reply_of_options pf proc srv mo req :
  serving pf proc srv -> plain_http pf srv req -> left_to_app pf srv req ->
  route_path (path_part req) -> method req = "OPTIONS" ->
  snd (handle pf srv mo req)
  = (ByAutomaticOptions,
     send pf mo req
       (get_wsgi_response req
          {| status_code := 200;
             headers := [("Content-Type", "text/html; charset=utf-8");
                         ("Allow", Str.join ", "
                                     (iterate_set (set_order mo) standard_methods))];
             data := "" |})).
Proof.
  intros Hs [Hh Hw] Hl Hp Ho. rewrite (handle_left_to_app _ _ _ _ Hl).
  destruct (serving_invariant _ _ _ Hs) as ((Hu & _) & _).
  unfold dispatch_request.
  rewrite Hu, (match_request_route _ _ _ _ Hh Hp), Ho, Hw.
  change (set_mem "OPTIONS" standard_methods) with true. cbv beta iota.
  destruct (rule_at_route _ Hp) as [-> _].
  cbn [String.eqb Ascii.eqb Bool.eqb andb].
  unfold make_default_options_response, allowed_methods.
  rewrite Hu, Hw, (match_url_route _ _ _ _ Hp).
  reflexivity.
Qed.

(** [jsonify] on the payload of [api]: the debug flag picks the layout. *)
Lemma jsonify_api cfg :
  jsonify cfg api_payload
  = make_Response (if DEBUG cfg then indented_api_body else compact_api_body)
                  200 "application/json".
Proof.
  unfold jsonify, json_dump_args. destruct (DEBUG cfg); vm_compute; reflexivity.
Qed.

Lemma route_path_of_path req p :
  p <> "/" -> path req = p -> path_part req = p.
Proof.
  intros Hp E. destruct (path_part_cases req) as [(_ & _ & E') | (_ & ->)];
    [congruence | exact E].
Qed.

(** The replies of the two views, as the server sends them. *)
Lemma method_of_request_method req m :
  request_method req = m -> method req = Str.upper m.
Proof. intros <-. reflexivity. Qed.

Lemma reply_of_api pf proc srv mo req :
  serving pf proc srv -> plain_http pf srv req -> left_to_app pf srv req ->
  path_part req = "/api" ->
  set_mem (method req) standard_methods = true -> method req <> "OPTIONS" ->
  snd (handle pf srv mo req)
  = (ByView "api",
     stamped pf (date mo)
       (get_wsgi_response req
          (make_Response
             (if use_debugger srv then indented_api_body else compact_api_body)
             200 "application/json"))).
Proof.
  intros Hs Hh Hl Hp Hm Ho.
  rewrite (reply_of_view pf proc srv mo req Hs Hh Hl); auto;
    [|right; exact Hp].
  rewrite Hp. cbn [view_at String.eqb Ascii.eqb Bool.eqb view_name view_call api].
  rewrite jsonify_api. cbn [make_response].
  destruct (serving_invariant _ _ _ Hs) as (_ & -> & _).
  rewrite send_wsgi_response by reflexivity. reflexivity.
Qed.

Lemma reply_of_root pf proc srv mo req :
  serving pf proc srv -> plain_http pf srv req -> left_to_app pf srv req ->
  path_part req = "/" ->
  set_mem (method req) standard_methods = true -> method req <> "OPTIONS" ->
  snd (handle pf srv mo req)
  = (ByView "root",
     stamped pf (date mo)
       (get_wsgi_response req (make_Response root_body 200 "text/html"))).
Proof.
  intros Hs Hh Hl Hp Hm Ho.
  rewrite (reply_of_view pf proc srv mo req Hs Hh Hl); auto;
    [|left; exact Hp].
  rewrite Hp. cbn [view_at String.eqb Ascii.eqb Bool.eqb view_name view_call root].
  cbn [make_response].
  rewrite send_wsgi_response by reflexivity. reflexivity.
Qed.

(** A server that [started] gives is a serving one. *)
Lemma started_serving pf proc srv : started pf proc = Some srv -> serving pf proc srv.
Proof. apply serving_started. Qed.

(** ** GET /api *)




(** ** GET / *)




(** ** Paths without a route *)

Lemma reply_of_unknown_path pf proc srv mo req :
  serving pf proc srv ->
  path req <> "/" -> path req <> "/api" -> under_static (path req) = false ->
  host_ok pf (address srv) req = true -> left_to_app pf srv req ->
  snd (handle pf srv mo req)
  = (ByException NotFound, stamped pf (date mo) (get_wsgi_response req not_found)).
Proof.
  intros Hs H1 H2 H3 Hh Hl.
  rewrite (reply_of_exception pf proc srv mo req NotFound Hs Hl
             (match_request_unknown _ _ _ _ Hh H1 H2 H3)).
  cbn [exception_response]. rewrite send_wsgi_response by reflexivity. reflexivity.
Qed.

(** No view answers on such a path, whatever the request. *)
Lemma handler_of_unknown_path pf proc srv mo req :
  serving pf proc srv ->
  path req <> "/" -> path req <> "/api" -> under_static (path req) = false ->
  forall name, fst (snd (handle pf srv mo req)) <> ByView name.
Proof.
  intros Hs H1 H2 H3 name.
  destruct (serving_invariant _ _ _ Hs) as ((Hu & _) & _).
  assert (Happ : fst (dispatch_request pf (application srv) (address srv)
                        (set_order mo) req) <> ByView name).
  { unfold dispatch_request, match_request. rewrite Hu.
    destruct (host_ok pf (address srv) req); [|discriminate].
    destruct (path_part_cases req) as [(_ & _ & E) | (_ & ->)]; [congruence|].
    rewrite match_url_not_found by auto using path_rooted. discriminate. }
  unfold handle. cbn [snd fst].
  destruct (use_debugger srv && debugger_may_answer req); [|exact Happ].
  destruct (debugger pf req); [discriminate | exact Happ].
Qed.




(** ** GET /api/ *)




(** ** Methods *)

Lemma reply_of_other_method pf proc srv mo req :
  serving pf proc srv -> route_path (path_part req) ->
  set_mem (method req) standard_methods = false ->
  host_ok pf (address srv) req = true -> left_to_app pf srv req ->
  snd (handle pf srv mo req)
  = (ByException (MethodNotAllowed (iterate_set (set_order mo) standard_methods)),
     stamped pf (date mo)
       (get_wsgi_response req
          (exception_response pf req
             (MethodNotAllowed (iterate_set (set_order mo) standard_methods))))).
Proof.
  intros Hs Hp Hm Hh Hl.
  assert (E : match_request pf server_rules (address srv) (set_order mo) req
              = inl (MethodNotAllowed (iterate_set (set_order mo) standard_methods)))
    by (rewrite (match_request_route _ _ _ _ Hh Hp), Hm; reflexivity).
  rewrite (reply_of_exception pf proc srv mo req _ Hs Hl E).
  rewrite send_wsgi_response by reflexivity. reflexivity.
Qed.







(** ** Repeated requests and the rest of a request *)

Lemma view_status p cfg req :
  route_path p ->
  status_code (make_response (view_call (view_at p) cfg req [])) = 200.
Proof.
  intros [-> | ->]; cbn [view_at String.eqb Ascii.eqb Bool.eqb view_call api root];
    [reflexivity | rewrite jsonify_api; reflexivity].
Qed.

(** Both views ignore the request and read only the debug flag. *)
Lemma view_call_route p cfg1 cfg2 req1 req2 :
  route_path p -> DEBUG cfg1 = DEBUG cfg2 ->
  make_response (view_call (view_at p) cfg1 req1 [])
  = make_response (view_call (view_at p) cfg2 req2 []).
Proof.
  intros [-> | ->] Hd; cbn [view_at String.eqb Ascii.eqb Bool.eqb view_call api root];
    [reflexivity | rewrite !jsonify_api, Hd; reflexivity].
Qed.

Lemma get_wsgi_response_method req1 req2 r :
  request_method req1 = request_method req2 ->
  get_wsgi_response req1 r = get_wsgi_response req2 r.
Proof. intros E. unfold get_wsgi_response. rewrite E. reflexivity. Qed.

Lemma serve_repeated pf proc srv req :
  serving pf proc srv -> route_path (path_part req) ->
  set_mem (method req) standard_methods = true -> method req <> "OPTIONS" ->
  plain_http pf srv req -> left_to_app pf srv req ->
  forall moments srv',
    serving pf proc srv' -> address srv' = address srv ->
    serve pf srv' (map (fun mo => (mo, req)) moments)
    = map (fun mo =>
             stamped pf (date mo)
               (get_wsgi_response req
                  (make_response
                     (view_call (view_at (path_part req))
                        (config (application srv)) req []))))
          moments.
Proof.
  intros Hs Hp Hm Ho [Hh Hw] Hl.
  destruct (serving_invariant _ _ _ Hs) as (_ & Hc & Hd & _).
  induction moments as [|mo rest IH]; intros srv' Hs' Ha; [reflexivity|].
  destruct (serving_invariant _ _ _ Hs') as (_ & Hc' & Hd' & _).
  assert (Hh' : plain_http pf srv' req) by (split; [rewrite Ha; exact Hh | exact Hw]).
  assert (Hl' : left_to_app pf srv' req)
    by (destruct Hl as [Hl | [Hl | Hl]];
        [left; congruence | right; left; exact Hl | right; right; exact Hl]).
  cbn [map serve]. f_equal.
  - rewrite (reply_of_view pf proc srv' mo req Hs' Hh' Hl' Hp Hm Ho). cbn [snd].
    rewrite send_wsgi_response by (rewrite view_status by exact Hp; reflexivity).
    rewrite (view_call_route _ (config (application srv')) (config (application srv))
               req req Hp) by congruence.
    reflexivity.
  - apply IH; [apply serving_next, Hs' | exact Ha].
Qed.







(** ** Starting the server *)

(** C7 (counterexample).  Started as the main program with the variable
    [FLASK_RUN_FROM_CLI=true] in its environment, the program binds
    nothing: [app.run] returns at once, no server exists and no request
    is answered. *)
Lemma cli_marker_prevents_listening :
  started plain_platform cli_process = None
  /\ (exists a, exec_module "__main__" plain_platform cli_process
                = Ok {| app := a; listening := None |})
  /\ program "__main__" plain_platform cli_process
             [(noon, bare_request "GET" "/")] = Ok [].
Proof.
  split; [reflexivity|]. split; [eexists; reflexivity | reflexivity].
Qed.

(** C7.  Run as the main program by a process whose environment does not
    set [FLASK_RUN_FROM_CLI] to [true] and, once the dotenv files are
    loaded, does not set [WERKZEUG_RUN_MAIN] to [true], on a machine that
    lets it bind the address, the program starts a server bound to host
    [0.0.0.0] and port 5000, on a socket of its own; the rest of the
    environment, the command line and the dotenv files change neither
    host nor port (they decide the debug flag). *)
Theorem main_binds_all_interfaces_port_5000 pf proc :
  os_environ proc !! "FLASK_RUN_FROM_CLI" <> Some "true" ->
  environ_after_dotenv proc !! "WERKZEUG_RUN_MAIN" <> Some "true" ->
  can_bind proc "0.0.0.0" 5000 = true ->
  exists srv,
    started pf proc = Some srv
    /\ address srv = ("0.0.0.0", 5000)
    /\ inherited srv = false
    /\ use_debugger srv = debug_mode "__main__" proc
    /\ routes_installed pf (application srv).
Proof.
  intros Hcli Hmain Hbind.
  destruct (exec_module_main pf proc) as (a & Hr & Hd & E).
  unfold started. rewrite E.
  rewrite bool_decide_eq_false_2 by exact Hcli.
  unfold run_simple.
  rewrite bool_decide_eq_false_2 by exact Hmain.
  rewrite Hbind. cbn [bind listening].
  eexists. split; [reflexivity|]. cbn [address inherited use_debugger application].
  repeat split; try assumption; apply Hr.
Qed.

Lemma main_binds_all_interfaces_port_5000_witness :
  exists srv,
    started plain_platform debug_process = Some srv
    /\ address srv = ("0.0.0.0", 5000)
    /\ use_debugger srv = true.
Proof.
  destruct (main_binds_all_interfaces_port_5000 plain_platform debug_process)
    as (srv & Hs & Ha & _ & Hd & _).
  - vm_compute. discriminate.
  - vm_compute. discriminate.
  - reflexivity.
  - exists srv. split; [exact Hs|]. split; [exact Ha|]. rewrite Hd. reflexivity.
Defined.

(** ** Importing the module *)

(** C10.  Run under any name but [__main__], that is imported, the
    module never reaches [app.run]: it ends without an exception and
    without a server, whatever the process and the platform, so that no
    request is answered.  What it leaves is the application object with
    the rule Flask's constructor registers for static files followed by
    the two rules of the module, [/api] for [api] and [/] for [root],
    and with no request served yet. *)
Theorem import_does_not_listen name pf proc :
  name <> "__main__" ->
  exists a,
    exec_module name pf proc = Ok {| app := a; listening := None |}
    /\ url_map (Flask name pf proc) = [static_rule]
    /\ url_map a = (url_map (Flask name pf proc) ++ [api_rule; root_rule])%list
    /\ map rule (url_map a) = ["/static/<path:filename>"; "/api"; "/"]
    /\ view_functions a !! "api" = Some api
    /\ view_functions a !! "root" = Some root
    /\ got_first_request a = false
    /\ forall reqs, program name pf proc reqs = Ok [].
Proof.
  intros Hn.
  destruct (exec_module_imported name pf proc Hn) as (a & E & (Hu & Ha & Hr & _) & Hg).
  exists a. split; [exact E|]. split; [reflexivity|].
  split; [rewrite Hu; reflexivity|]. split; [rewrite Hu; reflexivity|].
  split; [exact Ha|]. split; [exact Hr|]. split; [exact Hg|].
  intros reqs. unfold program. rewrite E. reflexivity.
Qed.

Lemma import_does_not_listen_witness :
  exists a,
    exec_module "server" plain_platform debug_process
    = Ok {| app := a; listening := None |}
    /\ program "server" plain_platform debug_process
               [(noon, bare_request "GET" "/")] = Ok [].
Proof.
  destruct (import_does_not_listen "server" plain_platform debug_process)
    as (a & E & _ & _ & _ & _ & _ & _ & Hp).
  - discriminate.
  - exists a. split; [exact E | apply Hp].
Defined.

(** ** Further properties *)




